(** * create_app_icon.py: the icon generator of Joanie

    A shallow embedding of [src/create_app_icon.py] and the properties of
    its specification.

    The script has one function, [create_app_icon()]: it binds a constant
    SVG document to [svg_content], writes it to [/tmp/joanie_icon.svg]
    inside a [with open(..., 'w')] block, prints six status strings and
    returns [True].  Everything it does is an effect on the world around
    it, so the embedding is a state-and-exception monad over a small model
    of that world:

    - the file system, a finite map from paths to file contents;
    - the table of open file objects, each with its path and the text that
      [write] has buffered and that has not reached the device yet;
    - the bytes written to [sys.stdout];
    - the process environment and the child processes started, which the
      two imported modules ([os], [subprocess]) give access to;
    - a log of the effects performed, in order.

    What the operating system answers is not decided by the script.  It is
    a parameter of every run, the [Host]: whether opening a path for
    writing is refused, how many bytes the device takes before it reports
    an error, and whether [sys.stdout] takes a text that is printed.

    Conventions of the model.  File contents and console output are
    [string]s, that is sequences of 8-bit characters: the template is pure
    ASCII (lemma [svg_content_ascii]), so its encoding is the same byte
    sequence under every ASCII-compatible locale.  Text mode on a POSIX
    host writes ['\n'] as it is. *)

From Stdlib Require Import ZArith Ascii String.
From stdpp Require Import base gmap strings list fin_maps.

Local Open Scope string_scope.

(** ** Python values and outcomes *)

Abbreviation path := string.

(** The exceptions of the built-ins the script calls.  [OSError] carries
    the [errno] of the failed system call; [ValueError] is what a file
    object raises when it is used after it was closed. *)
Inductive exn :=
  | OSError (errno : Z)
  | ValueError.

Inductive result (A : Type) :=
  | Return (a : A)
  | Raise (e : exn).
Arguments Return {A} a.
Arguments Raise {A} e.

Definition is_Return {A} (r : result A) : bool :=
  match r with Return _ => true | Raise _ => false end.

(** ** The world *)

(** A file object opened for writing: the path it was opened on and the
    text accepted by [write] that is still in its buffer. *)
Record OpenFile := mkOpenFile {
  of_path : path;
  of_pending : string
}.

(** The effects a run can have on its surroundings. *)
Inductive effect :=
  | Opened (p : path)              (* open(p, 'w') was attempted *)
  | Wrote (p : path) (n : nat)     (* n bytes reached the file at p *)
  | Closed (p : path)              (* the descriptor of p was released *)
  | Printed (s : string)           (* s was written to sys.stdout *)
  | EnvRead (k : string)           (* os.environ[k] was read *)
  | EnvWritten (k : string)        (* os.environ[k] was assigned *)
  | Spawned (argv : list string).  (* a child process was started *)

Record World := mkWorld {
  fs : gmap string string;
  fds : gmap nat OpenFile;
  stdout : string;
  environ : gmap string string;
  children : list (list string);
  log : list effect
}.

Definition set_fs (f : gmap string string → gmap string string) (w : World) : World :=
  mkWorld (f (fs w)) (fds w) (stdout w) (environ w) (children w) (log w).
Definition set_fds (f : gmap nat OpenFile → gmap nat OpenFile) (w : World) : World :=
  mkWorld (fs w) (f (fds w)) (stdout w) (environ w) (children w) (log w).
Definition set_stdout (f : string → string) (w : World) : World :=
  mkWorld (fs w) (fds w) (f (stdout w)) (environ w) (children w) (log w).
Definition set_environ (f : gmap string string → gmap string string) (w : World) : World :=
  mkWorld (fs w) (fds w) (stdout w) (f (environ w)) (children w) (log w).
Definition set_children (f : list (list string) → list (list string)) (w : World) : World :=
  mkWorld (fs w) (fds w) (stdout w) (environ w) (f (children w)) (log w).
Definition record (ev : effect) (w : World) : World :=
  mkWorld (fs w) (fds w) (stdout w) (environ w) (children w) ((log w ++ [ev])%list).

(** The answers of the operating system.  [open_fault p] is the [errno]
    with which opening [p] for writing fails, if it does (permission
    denied, no such directory, ...).  [flush_fault p data] tells, when the
    buffered [data] is written out to [p], whether the device fails and,
    if so, after how many bytes and with which [errno] (no space left,
    quota exceeded, I/O error, ...).  [stdout_fault s] tells the same for
    [print(s)]: whether writing [s] and its line feed to [sys.stdout]
    fails and, if so, after how many bytes and with which [errno] (the
    reader of a pipe has gone, the device behind the console is full,
    ...). *)
Record Host := mkHost {
  open_fault : path → option Z;
  flush_fault : path → string → option (nat * Z);
  stdout_fault : string → option (nat * Z)
}.

(** ** The monad of Python statements *)

Definition M (A : Type) : Type := Host → World → result A * World.

#[global] Instance M_ret : MRet M := λ A a _ w, (Return a, w).

#[global] Instance M_bind : MBind M := λ A B k m h w,
  match m h w with
  | (Return a, w') => k a h w'
  | (Raise e, w') => (Raise e, w')
  end.

(** ** The built-ins the script uses *)

Definition nl : string := String "010"%char EmptyString.

(** [print(s)]: [s] and a line feed go to [sys.stdout].  When the stream
    does not take the write, what it took of the text stays on the console
    and [OSError] is raised. *)
Definition print (s : string) : M unit := λ h w,
  match stdout_fault h s with
  | None =>
      (Return tt, record (Printed s) (set_stdout (λ out, out +:+ s +:+ nl) w))
  | Some (n, e) =>
      let sent := substring 0 n (s +:+ nl) in
      (Raise (OSError e),
       record (Printed sent) (set_stdout (λ out, out +:+ sent) w))
  end.

(** [open(p, 'w')].  When the system call fails nothing changes and
    [OSError] is raised.  Otherwise the file exists afterwards and is
    empty (it is created, or truncated when it was there), and a fresh
    file object on it is returned. *)
Definition open_w (p : path) : M nat := λ h w,
  match open_fault h p with
  | Some e => (Raise (OSError e), record (Opened p) w)
  | None =>
      let f := fresh (dom (fds w)) in
      (Return f,
       record (Opened p)
         (set_fds (insert f (mkOpenFile p EmptyString))
            (set_fs (insert p EmptyString) w)))
  end.

(** [f.write(s)] on a text file: the text is appended to the buffer of the
    file object and its length is returned.  The template is shorter than
    the buffer of a file object (lemma [svg_content_fits_buffer]), so
    nothing reaches the device before the buffer is flushed at [close]. *)
Definition file_write (f : nat) (s : string) : M nat := λ _ w,
  match fds w !! f with
  | None => (Raise ValueError, w)
  | Some o =>
      (Return (String.length s),
       set_fds (insert f (mkOpenFile (of_path o) (of_pending o +:+ s))) w)
  end.

(** [f.close()]: the buffer is flushed to the file, after what the file
    holds already, and the descriptor is released, also when the flush
    fails; the error of the flush is raised after the release.  Closing a
    closed file does nothing. *)
Definition file_close (f : nat) : M unit := λ h w,
  match fds w !! f with
  | None => (Return tt, w)
  | Some o =>
      let p := of_path o in
      let data := of_pending o in
      let old := default EmptyString (fs w !! p) in
      let released := set_fds (delete f) w in
      match flush_fault h p data with
      | None =>
          (Return tt,
           record (Closed p) (record (Wrote p (String.length data))
             (set_fs (insert p (old +:+ data)) released)))
      | Some (n, e) =>
          let sent := substring 0 n data in
          (Raise (OSError e),
           record (Closed p) (record (Wrote p (String.length sent))
             (set_fs (insert p (old +:+ sent)) released)))
      end
  end.

(** [with open(p, 'w') as f: body].  The file object is its own context
    manager: [__enter__] returns it and [__exit__] closes it and returns
    [None], so an exception of the body is raised again after the close.
    An exception of the close itself takes its place. *)
Definition with_open_w {A} (p : path) (body : nat → M A) : M A := λ h w,
  match open_w p h w with
  | (Raise e, w1) => (Raise e, w1)
  | (Return f, w1) =>
      let '(r, w2) := body f h w1 in
      match file_close f h w2 with
      | (Raise e, w3) => (Raise e, w3)
      | (Return _, w3) => (r, w3)
      end
  end.

(** ** The imported modules

    The script imports [os] and [subprocess].  These are the operations
    through which a program reaches the environment and starts
    processes. *)

Module os.
(** [os.environ.get(k)] *)
Definition environ_get (k : string) : M (option string) := λ _ w,
  (Return (environ w !! k), record (EnvRead k) w).
(** [os.environ[k] = v] *)
Definition environ_set (k v : string) : M unit := λ _ w,
  (Return tt, record (EnvWritten k) (set_environ (insert k v) w)).
End os.

Module subprocess.
(** [subprocess.run(argv)], up to the start of the child. *)
Definition run (argv : list string) : M unit := λ _ w,
  (Return tt, record (Spawned argv) (set_children (λ cs, (cs ++ [argv])%list) w)).
End subprocess.

(** ** The script *)

(** The double quote, and the template as the source has it between its
    triple quotes with every double quote written as an apostrophe (the
    template has no apostrophe of its own). *)
Definition dq : ascii := "034"%char.

Fixpoint requote (s : string) : string :=
  match s with
  | EmptyString => EmptyString
  | String c s' => String (if Ascii.eqb c "'"%char then dq else c) (requote s')
  end.

Definition svg_source : string :=
"<?xml version='1.0' encoding='UTF-8'?>
<svg width='1024' height='1024' viewBox='0 0 1024 1024' xmlns='http://www.w3.org/2000/svg'>
    <defs>
        <linearGradient id='grad1' x1='0%' y1='0%' x2='100%' y2='100%'>
            <stop offset='0%' style='stop-color:#FF6B9D;stop-opacity:1' />
            <stop offset='50%' style='stop-color:#C4E8C7;stop-opacity:1' />
            <stop offset='100%' style='stop-color:#FFD93D;stop-opacity:1' />
        </linearGradient>
    </defs>
    <rect width='1024' height='1024' rx='180' ry='180' fill='url(#grad1)'/>
    
    <!-- Art palette icon -->
    <circle cx='512' cy='400' r='80' fill='white' opacity='0.9'/>
    <circle cx='480' cy='380' r='25' fill='#FF6B9D'/>
    <circle cx='544' cy='380' r='25' fill='#C4E8C7'/>
    <circle cx='512' cy='420' r='25' fill='#FFD93D'/>
    
    <!-- Brush -->
    <rect x='620' y='350' width='8' height='60' fill='#8B4513' rx='4'/>
    <path d='M624 350 Q628 340 632 350 Q628 360 624 350' fill='#FF6B9D'/>
    
    <!-- Stars around -->
    <g fill='white' opacity='0.8'>
        <polygon points='200,200 210,230 240,230 215,245 225,275 200,260 175,275 185,245 160,230 190,230' />
        <polygon points='800,180 810,210 840,210 815,225 825,255 800,240 775,255 785,225 760,210 790,210' />
        <polygon points='180,800 190,830 220,830 195,845 205,875 180,860 155,875 165,845 140,830 170,830' />
        <polygon points='850,750 860,780 890,780 865,795 875,825 850,810 825,825 835,795 810,780 840,780' />
    </g>
    
    <!-- App name -->
    <text x='512' y='600' font-family='Arial, sans-serif' font-size='120' font-weight='bold' 
          text-anchor='middle' fill='white'>Joanie</text>
    
    <!-- Subtitle -->
    <text x='512' y='680' font-family='Arial, sans-serif' font-size='40' 
          text-anchor='middle' fill='white' opacity='0.9'>Artwork</text>
</svg>".

Definition svg_content : string := requote svg_source.

Definition icon_path : path := "/tmp/joanie_icon.svg".

Definition create_app_icon : M bool :=
  with_open_w "/tmp/joanie_icon.svg" (λ f, file_write f svg_content) ;;
  print "Created SVG icon at /tmp/joanie_icon.svg" ;;
  print "SVG content created successfully!" ;;
  print (nl +:+ "To create PNG from SVG, you can use:") ;;
  print "1. Online converter (recommended for this step)" ;;
  print "2. Install ImageMagick: brew install imagemagick" ;;
  print "3. Then run: convert /tmp/joanie_icon.svg /tmp/joanie_icon.png" ;;
  mret true.

(** [if __name__ == "__main__": create_app_icon()]: the value returned is
    dropped, an exception is not handled. *)
Definition main : M unit :=
  create_app_icon ;; mret tt.

(** The text the six [print] calls put on the console. *)
Definition status_lines : list string :=
  [ "Created SVG icon at /tmp/joanie_icon.svg";
    "SVG content created successfully!";
    nl +:+ "To create PNG from SVG, you can use:";
    "1. Online converter (recommended for this step)";
    "2. Install ImageMagick: brew install imagemagick";
    "3. Then run: convert /tmp/joanie_icon.svg /tmp/joanie_icon.png" ].

Definition console_output : string :=
  foldr (λ s out, s +:+ nl +:+ out) EmptyString status_lines.

(** ** Observing a run *)

(** The outcome and the world of a run. *)
Definition outcome {A} (m : M A) (h : Host) (w : World) : result A := fst (m h w).
Definition world_after {A} (m : M A) (h : Host) (w : World) : World := snd (m h w).

(** The value of a call that returned; [d] stands for a call that raised. *)
Definition returned {A} (d : A) (r : result A) : A :=
  match r with Return a => a | Raise _ => d end.

(** The world after [with open(p, 'w') as f: f.write(data)] in which [sent]
    is what reached the file. *)
Definition after_write (p : path) (sent : string) (w : World) : World :=
  mkWorld (<[p := sent]> (fs w)) (fds w) (stdout w) (environ w) (children w)
    ((log w ++ [Opened p; Wrote p (String.length sent); Closed p])%list).

(** A world with [out] added to the console and [evs] to the log. *)
Definition with_console (out : string) (evs : list effect) (w : World) : World :=
  mkWorld (fs w) (fds w) (stdout w +:+ out) (environ w) (children w)
    ((log w ++ evs)%list).

(** The text of [lines] on the console, each with its line feed. *)
Definition lines_text (lines : list string) : string :=
  foldr (λ s out, s +:+ nl +:+ out) EmptyString lines.

(** [sys.stdout] takes every one of [lines]. *)
Definition stdout_accepts (h : Host) (lines : list string) : bool :=
  forallb (λ s, match stdout_fault h s with None => true | Some _ => false end)
    lines.

(** [print] called on each of [lines] in turn. *)
Fixpoint print_all (lines : list string) : M unit :=
  match lines with
  | [] => mret tt
  | s :: rest => print s ;; print_all rest
  end.

(** The world after the six [print] calls, all of them taken. *)
Definition announce (w : World) : World :=
  mkWorld (fs w) (fds w) (stdout w +:+ console_output) (environ w)
    (children w) ((log w ++ map Printed status_lines)%list).

(** The first I/O error met when [data] is written to [p] on host [h]. *)
Definition write_error (h : Host) (p : path) (data : string) : option Z :=
  match open_fault h p with
  | Some e => Some e
  | None =>
      match flush_fault h p data with
      | Some (_, e) => Some e
      | None => None
      end
  end.

(** The events a run is allowed: file operations on the icon and text on
    the console. *)
Definition icon_or_console (ev : effect) : Prop :=
  match ev with
  | Opened p | Wrote p _ | Closed p => p = icon_path
  | Printed _ => True
  | EnvRead _ | EnvWritten _ | Spawned _ => False
  end.

(** ** Reading files and console text *)

(** The lines of a text, as [str.splitlines] cuts it at line feeds. *)
Fixpoint splitlines_from (cur : string) (s : string) : list string :=
  match s with
  | EmptyString =>
      match cur with EmptyString => [] | _ => [cur] end
  | String c s' =>
      if Ascii.eqb c "010"%char
      then cur :: splitlines_from EmptyString s'
      else splitlines_from (cur +:+ String c EmptyString) s'
  end.

Definition splitlines (s : string) : list string :=
  splitlines_from EmptyString s.

Definition contains (needle s : string) : Prop :=
  ∃ before after, s = before +:+ needle +:+ after.

Definition count_char (c : ascii) (s : string) : nat :=
  length (filter (λ x, x = c) (list_ascii_of_string s)).

Definition is_ascii (s : string) : bool :=
  forallb (λ c, Nat.ltb (nat_of_ascii c) 128) (list_ascii_of_string s).

(** The size of the buffer of a file object, [io.DEFAULT_BUFFER_SIZE]. *)
Definition DEFAULT_BUFFER_SIZE : N := 8192.

Definition starts_with (pre s : string) : Prop :=
  ∃ rest, s = pre +:+ rest.

Definition xml_decl : string :=
  requote "<?xml version='1.0' encoding='UTF-8'?>".

(** ** Worlds and hosts to run the script on *)

(** A host on which nothing fails. *)
Definition healthy : Host := mkHost (λ _, None) (λ _ _, None) (λ _, None).

(** A fresh process: no file, no open file object, nothing printed. *)
Definition boot : World :=
  mkWorld ∅ ∅ EmptyString ∅ [] [].

(** A process that has been running: the icon is there from an earlier
    time with other contents, next to another file; the three standard
    streams are open; something was printed; the environment is set. *)
Definition busy : World :=
  mkWorld
    (<[icon_path := "old icon"]> (<["/tmp/notes.txt" := "keep me"]> ∅))
    (<[0 := mkOpenFile "/dev/stdin" EmptyString]>
       (<[1 := mkOpenFile "/dev/stdout" EmptyString]>
          (<[2 := mkOpenFile "/dev/stderr" EmptyString]> ∅)))
    ("$ python3 create_app_icon.py" +:+ nl)
    (<["HOME" := "/Users/joanie"]> ∅)
    []
    [].

(** [EACCES], permission denied: the directory cannot be written. *)
Definition EACCES : Z := 13.
(** [ENOSPC], no space left on the device. *)
Definition ENOSPC : Z := 28.

(** A host on which [/tmp] is not writable. *)
Definition read_only_tmp : Host :=
  mkHost (λ _, Some EACCES) (λ _ _, None) (λ _, None).

(** A host whose device is full: a file can be created, no byte of data
    can be written. *)
Definition full_disk : Host :=
  mkHost (λ _, None) (λ _ _, Some (0, ENOSPC)) (λ _, None).

(** A host whose device fills up after a hundred bytes. *)
Definition filling_disk : Host :=
  mkHost (λ _, None) (λ _ _, Some (100, ENOSPC)) (λ _, None).

(** A host on which the icon, and nothing else, can be written. *)
Definition only_icon_writable : Host :=
  mkHost (λ p, if decide (p = icon_path) then None else Some EACCES)
         (λ _ _, None) (λ _, None).

(** [EPIPE], broken pipe: the reader of the console has gone. *)
Definition EPIPE : Z := 32.

(** A host on which files can be written and the console takes nothing:
    standard output is a device that is full. *)
Definition console_full : Host :=
  mkHost (λ _, None) (λ _ _, None) (λ _, Some (0, ENOSPC)).

(** A host on which files can be written and the reader of the console
    goes away in the middle of the second status line, after ten bytes of
    it. *)
Definition console_breaks : Host :=
  mkHost (λ _, None) (λ _ _, None)
    (λ s, if decide (s = "SVG content created successfully!")
          then Some (10, EPIPE) else None).

(** * Proofs *)

(** Projections of a world built by the setters. *)
Ltac world_simpl :=
  cbv [record set_fs set_fds set_stdout set_environ set_children
       fs fds stdout environ children log];
  cbn [of_path of_pending].

(** ** The template *)

Lemma svg_content_length : String.length svg_content = 1859.
Proof. vm_compute. reflexivity. Qed.

Lemma svg_content_quotes :
  count_char dq svg_content = 134 ∧ count_char "'"%char svg_content = 0.
Proof. split; vm_compute; reflexivity. Qed.

Lemma svg_content_lines : length (splitlines svg_content) = 37.
Proof. vm_compute. reflexivity. Qed.

Lemma svg_content_ascii : is_ascii svg_content = true.
Proof. vm_compute. reflexivity. Qed.

Lemma svg_content_fits_buffer :
  (N.of_nat (String.length svg_content) < DEFAULT_BUFFER_SIZE)%N.
Proof. rewrite svg_content_length. unfold DEFAULT_BUFFER_SIZE. lia. Qed.

(** ** Strings *)

Lemma string_app_nil_l (a : string) : EmptyString +:+ a = a.
Proof. reflexivity. Qed.

Lemma string_app_cons (x : ascii) (a b : string) :
  String x a +:+ b = String x (a +:+ b).
Proof. reflexivity. Qed.

Lemma string_app_assoc (a b c : string) : (a +:+ b) +:+ c = a +:+ b +:+ c.
Proof.
  induction a as [|x a IH]; [done|].
  rewrite !string_app_cons. by f_equal.
Qed.

Lemma string_app_nil_r (a : string) : a +:+ EmptyString = a.
Proof.
  induction a as [|x a IH]; [done|].
  rewrite string_app_cons. by f_equal.
Qed.

Lemma string_app_inj_l (a b c : string) : a +:+ b = a +:+ c → b = c.
Proof.
  induction a as [|x a IH]; [done|].
  rewrite !string_app_cons. intros [= H]. auto.
Qed.

(** What [substring 0 n] keeps of a text: a prefix of it, [n] characters
    long or the whole text when it is shorter. *)
Lemma substring_0_prefix (n : nat) (s : string) :
  ∃ rest, s = substring 0 n s +:+ rest.
Proof.
  revert n. induction s as [|c s IH]; intros [|n]; simpl.
  - by exists EmptyString.
  - by exists EmptyString.
  - by eexists.
  - destruct (IH n) as [rest Hrest]. exists rest.
    rewrite string_app_cons. by f_equal.
Qed.

Lemma substring_0_length (n : nat) (s : string) :
  String.length (substring 0 n s) = n `min` String.length s.
Proof.
  revert n. induction s as [|c s IH]; intros [|n]; simpl; try done.
  by rewrite IH.
Qed.

(** ** The [with] block *)

Lemma with_open_w_write (p : path) (data : string) (h : Host) (w : World) :
  with_open_w p (λ f, file_write f data) h w =
  match open_fault h p with
  | Some e => (Raise (OSError e), record (Opened p) w)
  | None =>
      match flush_fault h p data with
      | None => (Return (String.length data), after_write p data w)
      | Some (n, e) => (Raise (OSError e), after_write p (substring 0 n data) w)
      end
  end.
Proof.
  destruct w as [files handles out env procs events].
  unfold with_open_w, open_w.
  destruct (open_fault h p) as [e|]; [done|].
  cbn [fds]. set (f := fresh (dom handles)).
  assert (Hf : handles !! f = None) by (apply not_elem_of_dom, is_fresh).
  unfold file_write, file_close. world_simpl.
  rewrite lookup_insert_eq. world_simpl.
  rewrite lookup_insert_eq. world_simpl.
  rewrite lookup_insert_eq. cbn [default id].
  rewrite !string_app_nil_l, !insert_insert_eq, delete_insert_eq,
    (delete_id _ _ Hf).
  destruct (flush_fault h p data) as [[n e]|];
    unfold after_write; world_simpl;
    rewrite ?string_app_nil_l, ?insert_insert_eq, <- !app_assoc;
    reflexivity.
Qed.

(** ** The [print] calls *)

Lemma with_console_with_console (o1 o2 : string) (e1 e2 : list effect) (w : World) :
  with_console o2 e2 (with_console o1 e1 w)
    = with_console (o1 +:+ o2) ((e1 ++ e2)%list) w.
Proof.
  destruct w as [files handles out env procs events].
  unfold with_console; world_simpl.
  by rewrite string_app_assoc, <- app_assoc.
Qed.

Lemma print_taken (s : string) (h : Host) (w : World) :
  stdout_fault h s = None →
  print s h w = (Return tt, with_console (s +:+ nl) [Printed s] w).
Proof.
  intros Hs. unfold print. rewrite Hs.
  by destruct w as [files handles out env procs events].
Qed.

Lemma print_refused (s : string) (h : Host) (w : World) (n : nat) (e : Z) :
  stdout_fault h s = Some (n, e) →
  print s h w =
    (Raise (OSError e),
     with_console (substring 0 n (s +:+ nl))
       [Printed (substring 0 n (s +:+ nl))] w).
Proof.
  intros Hs. unfold print. rewrite Hs.
  by destruct w as [files handles out env procs events].
Qed.

Lemma print_all_cons (s : string) (rest : list string) (h : Host) (w : World) :
  print_all (s :: rest) h w =
  match print s h w with
  | (Return _, w') => print_all rest h w'
  | (Raise e, w') => (Raise e, w')
  end.
Proof. reflexivity. Qed.

(** When the console takes every line, all of them are printed. *)
Lemma print_all_accepted (lines : list string) (h : Host) (w : World) :
  stdout_accepts h lines = true →
  print_all lines h w =
    (Return tt, with_console (lines_text lines) (map Printed lines) w).
Proof.
  revert w. induction lines as [|s rest IH]; intros w Hacc.
  - destruct w as [files handles out env procs events].
    unfold with_console; world_simpl; cbn [print_all lines_text foldr map].
    by rewrite string_app_nil_r, app_nil_r.
  - cbn [stdout_accepts forallb] in Hacc.
    destruct (stdout_fault h s) as [[n e]|] eqn:Hs; [done|].
    rewrite print_all_cons, (print_taken s h w Hs), (IH _ Hacc).
    rewrite with_console_with_console.
    cbn [lines_text foldr map]. by rewrite string_app_assoc.
Qed.

(** The calls return exactly when the console takes every line. *)
Lemma print_all_returns_iff (lines : list string) (h : Host) (w : World) :
  is_Return (fst (print_all lines h w)) = true ↔ stdout_accepts h lines = true.
Proof.
  revert w. induction lines as [|s rest IH]; intros w; [done|].
  rewrite print_all_cons. cbn [stdout_accepts forallb].
  destruct (stdout_fault h s) as [[n e]|] eqn:Hs.
  - by rewrite (print_refused s h w n e Hs).
  - rewrite (print_taken s h w Hs). apply IH.
Qed.

(** Whatever the console takes, the calls change the console and the log
    alone: the text added is the beginning of the text of the lines, and
    the effects added are writes to the console. *)
Lemma print_all_world (lines : list string) (h : Host) (w : World) :
  ∃ out evs rest,
    snd (print_all lines h w) = with_console out evs w ∧
    lines_text lines = out +:+ rest ∧
    Forall icon_or_console evs.
Proof.
  revert w. induction lines as [|s tl IH]; intros w.
  - exists EmptyString, [], EmptyString. split; [|done].
    destruct w as [files handles out env procs events].
    unfold with_console; world_simpl; cbn [print_all snd].
    by rewrite string_app_nil_r, app_nil_r.
  - rewrite print_all_cons.
    destruct (stdout_fault h s) as [[n e]|] eqn:Hs.
    + rewrite (print_refused s h w n e Hs).
      destruct (substring_0_prefix n (s +:+ nl)) as [rest Hrest].
      exists (substring 0 n (s +:+ nl)),
             [Printed (substring 0 n (s +:+ nl))],
             (rest +:+ lines_text tl).
      split; [done|]. split; [|by repeat constructor].
      cbn [lines_text foldr]. fold (lines_text tl).
      by rewrite <- !string_app_assoc, <- Hrest.
    + rewrite (print_taken s h w Hs).
      destruct (IH (with_console (s +:+ nl) [Printed s] w))
        as (out & evs & rest & Hw & Htext & Hevs).
      exists ((s +:+ nl) +:+ out), (Printed s :: evs), rest.
      split; [by rewrite Hw, with_console_with_console|].
      split; [|by constructor].
      cbn [lines_text foldr]. fold (lines_text tl).
      by rewrite Htext, !string_app_assoc.
Qed.

(** When the calls return, all the lines are on the console. *)
Lemma print_all_returned (lines : list string) (h : Host) (w w' : World) (u : unit) :
  print_all lines h w = (Return u, w') →
  w' = with_console (lines_text lines) (map Printed lines) w.
Proof.
  intros Hrun.
  assert (Hacc : stdout_accepts h lines = true).
  { apply (print_all_returns_iff lines h w). by rewrite Hrun. }
  rewrite (print_all_accepted lines h w Hacc) in Hrun. by injection Hrun.
Qed.

(** A failing sequence of calls fails with an [OSError]. *)
Lemma print_all_raises (lines : list string) (h : Host) (w : World) :
  stdout_accepts h lines = false →
  ∃ e, fst (print_all lines h w) = Raise (OSError e).
Proof.
  revert w. induction lines as [|s rest IH]; intros w Hacc; [done|].
  rewrite print_all_cons. cbn [stdout_accepts forallb] in Hacc.
  destruct (stdout_fault h s) as [[n e]|] eqn:Hs.
  - exists e. by rewrite (print_refused s h w n e Hs).
  - rewrite (print_taken s h w Hs). by apply IH.
Qed.

(** ** One run of [create_app_icon] *)

(** Every run, on every host and from every world, is one of three: the
    open is refused; the open is granted and the flush fails after some
    bytes; both succeed and the six status strings are printed in turn,
    as far as the console takes them. *)
Lemma create_app_icon_run (h : Host) (w : World) :
  create_app_icon h w =
  match open_fault h icon_path with
  | Some e => (Raise (OSError e), record (Opened icon_path) w)
  | None =>
      match flush_fault h icon_path svg_content with
      | Some (n, e) =>
          (Raise (OSError e),
           after_write icon_path (substring 0 n svg_content) w)
      | None =>
          match print_all status_lines h
                  (after_write icon_path svg_content w) with
          | (Return _, w') => (Return true, w')
          | (Raise e, w') => (Raise e, w')
          end
      end
  end.
Proof.
  unfold create_app_icon, mbind at 1, M_bind at 1.
  change (with_open_w _ _ h w)
    with (with_open_w icon_path (λ f, file_write f svg_content) h w).
  rewrite with_open_w_write.
  destruct (open_fault h icon_path) as [e|]; [done|].
  destruct (flush_fault h icon_path svg_content) as [[n e]|]; [done|].
  generalize (after_write icon_path svg_content w). intros w0.
  unfold status_lines, print_all, mbind, M_bind, mret, M_ret.
  repeat (destruct (print _ h _) as [[[]|?] ?]; [|reflexivity]).
  reflexivity.
Qed.

Lemma announce_with_console (w : World) :
  announce w
    = with_console (lines_text status_lines) (map Printed status_lines) w.
Proof. reflexivity. Qed.

(** A run returns exactly when the host grants the open, takes the whole
    template and takes the six status strings. *)
Lemma create_app_icon_returns_iff (h : Host) (w : World) :
  is_Return (outcome create_app_icon h w) = true ↔
  open_fault h icon_path = None ∧
  flush_fault h icon_path svg_content = None ∧
  stdout_accepts h status_lines = true.
Proof.
  unfold outcome. rewrite create_app_icon_run.
  destruct (open_fault h icon_path) as [e|]; [by intuition|].
  destruct (flush_fault h icon_path svg_content) as [[n e]|]; [by intuition|].
  rewrite <- (print_all_returns_iff status_lines h
                (after_write icon_path svg_content w)).
  destruct (print_all status_lines h _) as [[u|e] w']; by intuition.
Qed.

Lemma create_app_icon_on_success (h : Host) (w : World) :
  open_fault h icon_path = None →
  flush_fault h icon_path svg_content = None →
  stdout_accepts h status_lines = true →
  create_app_icon h w =
    (Return true, announce (after_write icon_path svg_content w)).
Proof.
  intros Ho Hf Hp. rewrite create_app_icon_run, Ho, Hf.
  by rewrite (print_all_accepted status_lines h _ Hp).
Qed.

Lemma create_app_icon_returned (h : Host) (w w' : World) (r : bool) :
  create_app_icon h w = (Return r, w') →
  r = true ∧ w' = announce (after_write icon_path svg_content w).
Proof.
  rewrite create_app_icon_run.
  destruct (open_fault h icon_path) as [e|]; [done|].
  destruct (flush_fault h icon_path svg_content) as [[n e]|]; [done|].
  destruct (print_all status_lines h _) as [[u|e] w0] eqn:Hp; [|done].
  intros [= <- <-]. split; [done|].
  by apply print_all_returned in Hp.
Qed.

(** What a run leaves when the open and the flush are granted: the world
    after the write, with a beginning of the status text on the console. *)
Lemma create_app_icon_written (h : Host) (w : World) :
  open_fault h icon_path = None →
  flush_fault h icon_path svg_content = None →
  ∃ out evs rest,
    world_after create_app_icon h w
      = with_console out evs (after_write icon_path svg_content w) ∧
    console_output = out +:+ rest ∧
    Forall icon_or_console evs.
Proof.
  intros Ho Hf. unfold world_after. rewrite create_app_icon_run, Ho, Hf.
  destruct (print_all_world status_lines h
              (after_write icon_path svg_content w))
    as (out & evs & rest & Hw & Htext & Hevs).
  exists out, evs, rest. split; [|done].
  by destruct (print_all status_lines h _) as [[u|e] w'].
Qed.

Lemma icon_after_success (w : World) :
  fs (announce (after_write icon_path svg_content w)) !! icon_path
    = Some svg_content.
Proof. unfold announce, after_write; cbn [fs]. apply lookup_insert_eq. Qed.

(** The table of open files is the same after a run as before it. *)
Lemma create_app_icon_keeps_fds (h : Host) (w : World) :
  fds (world_after create_app_icon h w) = fds w.
Proof.
  destruct (open_fault h icon_path) as [e|] eqn:Ho;
    [|destruct (flush_fault h icon_path svg_content) as [[n e]|] eqn:Hf].
  - unfold world_after. by rewrite create_app_icon_run, Ho.
  - unfold world_after. by rewrite create_app_icon_run, Ho, Hf.
  - destruct (create_app_icon_written h w Ho Hf) as (out & evs & rest & -> & _).
    done.
Qed.

(** Scoped acquisition, for every body: the file object handed to the body
    is closed when the [with] statement is left, whether the body returns
    or raises and whether the flush succeeds or fails. *)
Lemma with_open_w_releases {A} (p : path) (body : nat → M A) (h : Host) (w : World) :
  open_fault h p = None →
  fds (world_after (with_open_w p body) h w) !! fresh (dom (fds w)) = None.
Proof.
  intros Ho. unfold world_after, with_open_w, open_w. rewrite Ho.
  set (f := fresh (dom (fds w))).
  destruct (body f h _) as [r w2].
  unfold file_close.
  destruct (fds w2 !! f) as [o|] eqn:Hf.
  - destruct (flush_fault h (of_path o) (of_pending o)) as [[n e]|];
      cbn; apply lookup_delete_eq.
  - by destruct r.
Qed.

Example boot_healthy_run :
  outcome create_app_icon healthy boot = Return true.
Proof. vm_compute. reflexivity. Qed.

(** ** The properties of the specification *)

(** C1.  Whenever [create_app_icon()] returns, a file exists at
    [/tmp/joanie_icon.svg] and its contents are the template
    [svg_content], byte for byte. *)
Theorem written_file_is_template (h : Host) (w w' : World) (r : bool) :
  create_app_icon h w = (Return r, w') →
  fs w' !! icon_path = Some svg_content.
Proof.
  intros Hrun. apply create_app_icon_returned in Hrun as [_ ->].
  apply icon_after_success.
Qed.

(** A run on a healthy host that replaces an older icon. *)
Lemma written_file_is_template_witness :
  fs (world_after create_app_icon healthy busy) !! icon_path = Some svg_content.
Proof.
  apply (written_file_is_template healthy busy
           (world_after create_app_icon healthy busy) true).
  vm_compute. reflexivity.
Defined.

(** C2, as the code has it.  When opening [/tmp/joanie_icon.svg] for
    writing fails (the directory is not writable, say), the call raises
    that error and the file system is what it was: no file is created and
    none is modified. *)
Theorem refused_open_changes_no_file (h : Host) (w : World) (e : Z) :
  open_fault h icon_path = Some e →
  outcome create_app_icon h w = Raise (OSError e) ∧
  fs (world_after create_app_icon h w) = fs w.
Proof.
  intros Ho. unfold outcome, world_after.
  by rewrite create_app_icon_run, Ho.
Qed.

(** A run with [/tmp] not writable, next to an older icon and another file. *)
Lemma refused_open_changes_no_file_witness :
  outcome create_app_icon read_only_tmp busy = Raise (OSError EACCES) ∧
  fs (world_after create_app_icon read_only_tmp busy) = fs busy.
Proof.
  apply (refused_open_changes_no_file read_only_tmp busy EACCES).
  reflexivity.
Defined.

(** C2, as the specification states it, fails: [open(..., 'w')] creates or
    empties the file before any data is written.  On a full device the
    call raises [OSError], and yet a file that was not there exists
    afterwards, and a file that was there has lost its contents. *)
Lemma failed_flush_changes_file :
  (outcome create_app_icon full_disk boot = Raise (OSError ENOSPC) ∧
   fs boot !! icon_path = None ∧
   fs (world_after create_app_icon full_disk boot) !! icon_path
     = Some EmptyString) ∧
  (outcome create_app_icon full_disk busy = Raise (OSError ENOSPC) ∧
   fs busy !! icon_path = Some "old icon" ∧
   fs (world_after create_app_icon full_disk busy) !! icon_path
     = Some EmptyString).
Proof. repeat split; vm_compute; reflexivity. Qed.

(** C3, as the code has it.  When the open and the write succeed and the
    console takes the status text, the call returns, the file starts with
    the XML declaration and contains [Joanie], and the console receives
    exactly seven lines, the first of which is
    [Created SVG icon at /tmp/joanie_icon.svg]. *)
Theorem success_file_and_console (h : Host) (w : World) :
  open_fault h icon_path = None →
  flush_fault h icon_path svg_content = None →
  stdout_accepts h status_lines = true →
  outcome create_app_icon h w = Return true ∧
  (∃ content,
     fs (world_after create_app_icon h w) !! icon_path = Some content ∧
     starts_with xml_decl content ∧
     contains "Joanie" content) ∧
  (∃ out first,
     stdout (world_after create_app_icon h w) = stdout w +:+ out ∧
     length (splitlines out) = 7 ∧
     head (splitlines out) = Some first ∧
     starts_with "Created SVG icon at" first).
Proof.
  intros Ho Hf Hp. unfold outcome, world_after.
  rewrite (create_app_icon_on_success h w Ho Hf Hp). split; [done|]. split.
  - exists svg_content. split; [apply icon_after_success|]. split.
    + exists (substring (String.length xml_decl)
                (String.length svg_content) svg_content).
      vm_compute. reflexivity.
    + exists (substring 0 1665 svg_content),
             (substring 1671 (String.length svg_content) svg_content).
      vm_compute. reflexivity.
  - exists console_output, "Created SVG icon at /tmp/joanie_icon.svg".
    split; [done|]. split; [by vm_compute|]. split; [by vm_compute|].
    by exists " /tmp/joanie_icon.svg".
Qed.

(** A run on a healthy host in a process that has printed before. *)
Lemma success_file_and_console_witness :
  outcome create_app_icon healthy busy = Return true ∧
  (∃ content,
     fs (world_after create_app_icon healthy busy) !! icon_path = Some content ∧
     starts_with xml_decl content ∧
     contains "Joanie" content) ∧
  (∃ out first,
     stdout (world_after create_app_icon healthy busy) = stdout busy +:+ out ∧
     length (splitlines out) = 7 ∧
     head (splitlines out) = Some first ∧
     starts_with "Created SVG icon at" first).
Proof.
  apply (success_file_and_console healthy busy); reflexivity.
Defined.

(** C3, as the specification states it, fails on the number of lines: a
    successful run from a fresh process leaves seven lines on the console,
    not three.  And a writable directory alone does not give any line:
    when the console takes nothing, the file is written in full, the first
    [print] raises and the console stays empty. *)
Lemma console_has_seven_lines :
  (outcome create_app_icon healthy boot = Return true ∧
   length (splitlines (stdout (world_after create_app_icon healthy boot))) = 7 ∧
   length (splitlines (stdout (world_after create_app_icon healthy boot))) ≠ 3) ∧
  (open_fault console_full icon_path = None ∧
   flush_fault console_full icon_path svg_content = None ∧
   outcome create_app_icon console_full boot = Raise (OSError ENOSPC) ∧
   fs (world_after create_app_icon console_full boot) !! icon_path
     = Some svg_content ∧
   length (splitlines (stdout (world_after create_app_icon console_full boot)))
     = 0).
Proof. repeat split; vm_compute; (reflexivity || discriminate). Qed.

(** C4, as the code has it.  No confirmation is printed on a failed
    write: when the [with] block raises, the call raises and the console
    is what it was.  And when the console takes the status text, the
    confirmation is printed exactly when the file write succeeds: what a
    run adds to the console is the whole status text when the [with] block
    returns and nothing when it raises, and the call returns in the first
    case only. *)
Theorem confirmation_iff_write_succeeds (h : Host) (w : World) :
  (is_Return (outcome (with_open_w icon_path
                         (λ f, file_write f svg_content)) h w) = false →
   stdout (world_after create_app_icon h w) = stdout w ∧
   is_Return (outcome create_app_icon h w) = false) ∧
  (stdout_accepts h status_lines = true →
   stdout (world_after create_app_icon h w) =
     stdout w +:+
     (if is_Return (outcome (with_open_w icon_path
                               (λ f, file_write f svg_content)) h w)
      then console_output else EmptyString) ∧
   (is_Return (outcome (with_open_w icon_path
                          (λ f, file_write f svg_content)) h w) = true
    ↔ stdout (world_after create_app_icon h w)
        = stdout w +:+ console_output) ∧
   is_Return (outcome create_app_icon h w) =
     is_Return (outcome (with_open_w icon_path
                           (λ f, file_write f svg_content)) h w)).
Proof.
  assert (Hne : ∀ out, out = out +:+ console_output → False).
  { intros out H. rewrite <- (string_app_nil_r out) in H at 1.
    apply string_app_inj_l in H. discriminate H. }
  unfold outcome at 1 3 4 6. rewrite with_open_w_write.
  destruct (open_fault h icon_path) as [e|] eqn:Ho;
    [|destruct (flush_fault h icon_path svg_content) as [[n e]|] eqn:Hf].
  - unfold outcome, world_after. rewrite create_app_icon_run, Ho.
    destruct w as [files handles out env procs events].
    world_simpl; cbn [fst snd is_Return]. split; [done|]. intros _.
    rewrite string_app_nil_r. split; [done|]. split; [|done].
    split; [done|]. intros H. by apply Hne in H.
  - unfold outcome, world_after. rewrite create_app_icon_run, Ho, Hf.
    destruct w as [files handles out env procs events].
    unfold after_write; world_simpl; cbn [fst snd is_Return].
    split; [done|]. intros _.
    rewrite string_app_nil_r. split; [done|]. split; [|done].
    split; [done|]. intros H. by apply Hne in H.
  - cbn [fst is_Return]. split; [done|]. intros Hp.
    unfold outcome, world_after.
    rewrite (create_app_icon_on_success h w Ho Hf Hp).
    by destruct w as [files handles out env procs events].
Qed.

(** A failed write on a full device, and a run on a healthy host. *)
Lemma confirmation_iff_write_succeeds_witness :
  (stdout (world_after create_app_icon full_disk busy) = stdout busy ∧
   is_Return (outcome create_app_icon full_disk busy) = false) ∧
  (stdout (world_after create_app_icon healthy busy) =
     stdout busy +:+
     (if is_Return (outcome (with_open_w icon_path
                               (λ f, file_write f svg_content)) healthy busy)
      then console_output else EmptyString) ∧
   (is_Return (outcome (with_open_w icon_path
                          (λ f, file_write f svg_content)) healthy busy) = true
    ↔ stdout (world_after create_app_icon healthy busy)
        = stdout busy +:+ console_output) ∧
   is_Return (outcome create_app_icon healthy busy) =
     is_Return (outcome (with_open_w icon_path
                           (λ f, file_write f svg_content)) healthy busy)).
Proof.
  split.
  - apply (confirmation_iff_write_succeeds full_disk busy).
    vm_compute. reflexivity.
  - apply (confirmation_iff_write_succeeds healthy busy). reflexivity.
Defined.

(** C4, as the specification states it, fails in one direction: a write
    that succeeds is not always followed by the confirmation.  When the
    console takes nothing, the [with] block returns, the icon holds the
    template, and the first [print] raises: the call ends in [OSError]
    and nothing is on the console. *)
Lemma written_but_not_confirmed :
  outcome (with_open_w icon_path (λ f, file_write f svg_content))
    console_full boot = Return (String.length svg_content) ∧
  fs (world_after create_app_icon console_full boot) !! icon_path
    = Some svg_content ∧
  outcome create_app_icon console_full boot = Raise (OSError ENOSPC) ∧
  stdout (world_after create_app_icon console_full boot) = stdout boot.
Proof. repeat split; vm_compute; reflexivity. Qed.

(** C5.  An I/O error met while the file is written, at the open or at the
    flush, is the exception of the [with] block, of [create_app_icon()]
    and of the main entry point: nothing catches it and nothing replaces
    it. *)
Theorem io_error_propagates (h : Host) (w : World) (e : Z) :
  write_error h icon_path svg_content = Some e →
  outcome (with_open_w icon_path (λ f, file_write f svg_content)) h w
    = Raise (OSError e) ∧
  outcome create_app_icon h w = Raise (OSError e) ∧
  outcome main h w = Raise (OSError e).
Proof.
  unfold write_error, outcome, main, mbind at 1, M_bind at 1.
  rewrite create_app_icon_run, with_open_w_write.
  destruct (open_fault h icon_path) as [e1|]; [by intros [= ->]|].
  destruct (flush_fault h icon_path svg_content) as [[n e2]|]; [|done].
  by intros [= ->].
Qed.

(** A run on a device that fills up after a hundred bytes. *)
Lemma io_error_propagates_witness :
  outcome (with_open_w icon_path (λ f, file_write f svg_content))
    filling_disk busy = Raise (OSError ENOSPC) ∧
  outcome create_app_icon filling_disk busy = Raise (OSError ENOSPC) ∧
  outcome main filling_disk busy = Raise (OSError ENOSPC).
Proof.
  apply (io_error_propagates filling_disk busy ENOSPC). reflexivity.
Defined.




(** C7.  The frame of a run, on every host and whether it returns or
    raises: apart from the icon the file system is what it was; the table
    of open files, the environment and the list of child processes are
    what they were; and every effect performed is a file operation on the
    icon or text on the console, so no environment variable is read or
    assigned and no process is started. *)
Theorem only_icon_and_console (h : Host) (w : World) :
  delete icon_path (fs (world_after create_app_icon h w))
    = delete icon_path (fs w) ∧
  fds (world_after create_app_icon h w) = fds w ∧
  environ (world_after create_app_icon h w) = environ w ∧
  children (world_after create_app_icon h w) = children w ∧
  ∃ evs,
    log (world_after create_app_icon h w) = (log w ++ evs)%list ∧
    Forall icon_or_console evs.
Proof.
  destruct (open_fault h icon_path) as [e|] eqn:Ho;
    [|destruct (flush_fault h icon_path svg_content) as [[n e]|] eqn:Hf].
  - unfold world_after. rewrite create_app_icon_run, Ho.
    destruct w as [files handles out env procs events].
    world_simpl; cbn [snd]. repeat (split; [done|]).
    eexists. split; [reflexivity|]. repeat constructor.
  - unfold world_after. rewrite create_app_icon_run, Ho, Hf.
    destruct w as [files handles out env procs events].
    unfold after_write; world_simpl; cbn [snd].
    rewrite delete_insert_eq. repeat (split; [done|]).
    eexists. split; [reflexivity|]. repeat constructor.
  - destruct (create_app_icon_written h w Ho Hf)
      as (out & evs & rest & -> & _ & Hevs).
    destruct w as [files handles out0 env procs events].
    unfold with_console, after_write; world_simpl.
    rewrite delete_insert_eq. repeat (split; [done|]).
    eexists. split; [by rewrite <- app_assoc|].
    apply Forall_app. split; [repeat constructor|done].
Qed.

(** C8.  On every exit path the file object opened on the icon is closed
    when the call is left: the table of open files is what it was before
    the call, the descriptor the call was given is free again, and a
    granted open is followed by the close in the log of effects, also
    when the flush has failed. *)
Theorem file_closed_on_every_exit (h : Host) (w : World) :
  fds (world_after create_app_icon h w) = fds w ∧
  fds (world_after create_app_icon h w) !! fresh (dom (fds w)) = None ∧
  match open_fault h icon_path with
  | Some _ =>
      log (world_after create_app_icon h w) = (log w ++ [Opened icon_path])%list
  | None =>
      ∃ n evs,
        log (world_after create_app_icon h w) =
          (log w ++ Opened icon_path :: Wrote icon_path n
             :: Closed icon_path :: evs)%list
  end.
Proof.
  pose proof (create_app_icon_keeps_fds h w) as Hfds.
  split; [done|]. split.
  { rewrite Hfds. apply not_elem_of_dom, is_fresh. }
  destruct (open_fault h icon_path) as [e|] eqn:Ho;
    [|destruct (flush_fault h icon_path svg_content) as [[n e]|] eqn:Hf].
  - unfold world_after. rewrite create_app_icon_run, Ho.
    by destruct w as [files handles out env procs events].
  - unfold world_after. rewrite create_app_icon_run, Ho, Hf.
    destruct w as [files handles out env procs events].
    unfold after_write; world_simpl; cbn [snd].
    do 2 eexists. reflexivity.
  - destruct (create_app_icon_written h w Ho Hf)
      as (out & evs & rest & -> & _ & _).
    destruct w as [files handles out0 env procs events].
    unfold with_console, after_write; world_simpl.
    do 2 eexists. rewrite <- app_assoc. reflexivity.
Qed.

(** C9.  Two runs that return, on any two hosts and from any two worlds,
    return the same value, leave the same contents in the icon and add the
    same text to the console. *)
Theorem runs_are_deterministic
    (h1 h2 : Host) (w1 w2 w1' w2' : World) (r1 r2 : bool) :
  create_app_icon h1 w1 = (Return r1, w1') →
  create_app_icon h2 w2 = (Return r2, w2') →
  r1 = r2 ∧
  fs w1' !! icon_path = fs w2' !! icon_path ∧
  ∃ out,
    stdout w1' = stdout w1 +:+ out ∧
    stdout w2' = stdout w2 +:+ out.
Proof.
  intros H1 H2.
  apply create_app_icon_returned in H1 as [-> ->].
  apply create_app_icon_returned in H2 as [-> ->].
  split; [done|]. split.
  - by rewrite !icon_after_success.
  - by exists console_output.
Qed.

(** Two runs on different hosts, one from a fresh process and one from a busy one. *)
Lemma runs_are_deterministic_witness :
  returned false (outcome create_app_icon healthy busy)
    = returned false (outcome create_app_icon only_icon_writable boot) ∧
  fs (world_after create_app_icon healthy busy) !! icon_path
    = fs (world_after create_app_icon only_icon_writable boot) !! icon_path ∧
  ∃ out,
    stdout (world_after create_app_icon healthy busy)
      = stdout busy +:+ out ∧
    stdout (world_after create_app_icon only_icon_writable boot)
      = stdout boot +:+ out.
Proof.
  apply (runs_are_deterministic healthy only_icon_writable busy boot);
    vm_compute; reflexivity.
Defined.

(** C10.  Whenever [create_app_icon()] returns, the value returned is
    [True]. *)
Theorem returns_True (h : Host) (w w' : World) (r : bool) :
  create_app_icon h w = (Return r, w') → r = true.
Proof. intros Hrun. by apply create_app_icon_returned in Hrun as [-> _]. Qed.

(** A run of a fresh process on a healthy host. *)
Lemma returns_True_witness :
  returned false (outcome create_app_icon healthy boot) = true.
Proof.
  apply (returns_True healthy boot (world_after create_app_icon healthy boot)).
  vm_compute. reflexivity.
Defined.

(** ** Further properties of the script *)

(** X1.  The script as a program: [main] does to the world exactly what
    [create_app_icon()] does, and it ends without an exception exactly
    when the host grants the open, takes the whole template and takes the
    six status strings on the console. *)
Theorem main_succeeds_iff_host_grants (h : Host) (w : World) :
  world_after main h w = world_after create_app_icon h w ∧
  (is_Return (outcome main h w) = true ↔
   open_fault h icon_path = None ∧
   flush_fault h icon_path svg_content = None ∧
   stdout_accepts h status_lines = true).
Proof.
  rewrite <- (create_app_icon_returns_iff h w).
  unfold main, world_after, outcome, mbind, M_bind.
  by destruct (create_app_icon h w) as [[r|e] w'].
Qed.

(** X2.  The order of the effects of a run that returns: the file is
    opened, the whole template is written, the file is closed, and only
    then are the six status strings printed, in the order of the source.
    Nothing else happens. *)
Theorem confirmation_after_close (h : Host) (w w' : World) (r : bool) :
  create_app_icon h w = (Return r, w') →
  log w' =
    (log w ++
     [Opened icon_path; Wrote icon_path (String.length svg_content);
      Closed icon_path] ++
     map Printed status_lines)%list.
Proof.
  intros Hrun. apply create_app_icon_returned in Hrun as [_ ->].
  destruct w as [files handles out env procs events].
  unfold announce, after_write; world_simpl.
  by rewrite <- app_assoc.
Qed.

(** A run that returns in a process that has been running. *)
Lemma confirmation_after_close_witness :
  log (world_after create_app_icon healthy busy) =
    (log busy ++
     [Opened icon_path; Wrote icon_path (String.length svg_content);
      Closed icon_path] ++
     map Printed status_lines)%list.
Proof.
  apply (confirmation_after_close healthy busy
           (world_after create_app_icon healthy busy) true).
  vm_compute. reflexivity.
Defined.

(** X3.  A flush that fails after [n] bytes: the call raises the error of
    the device, the icon is left holding the first [n] bytes of the
    template (all of it when [n] is larger), whatever it held before, and
    nothing is printed. *)
Theorem failed_flush_leaves_prefix (h : Host) (w : World) (n : nat) (e : Z) :
  open_fault h icon_path = None →
  flush_fault h icon_path svg_content = Some (n, e) →
  outcome create_app_icon h w = Raise (OSError e) ∧
  (∃ sent rest,
     fs (world_after create_app_icon h w) !! icon_path = Some sent ∧
     svg_content = sent +:+ rest ∧
     String.length sent = n `min` String.length svg_content) ∧
  stdout (world_after create_app_icon h w) = stdout w.
Proof.
  intros Ho Hf. unfold outcome, world_after.
  rewrite create_app_icon_run, Ho, Hf.
  destruct w as [files handles out env procs events].
  unfold after_write; world_simpl; cbn [fst snd].
  split; [done|]. split; [|done].
  destruct (substring_0_prefix n svg_content) as [rest Hrest].
  exists (substring 0 n svg_content), rest.
  split; [apply lookup_insert_eq|]. split; [done|].
  apply substring_0_length.
Qed.

(** A device that fills up after a hundred bytes, with an older icon in
    place. *)
Lemma failed_flush_leaves_prefix_witness :
  outcome create_app_icon filling_disk busy = Raise (OSError ENOSPC) ∧
  (∃ sent rest,
     fs (world_after create_app_icon filling_disk busy) !! icon_path
       = Some sent ∧
     svg_content = sent +:+ rest ∧
     String.length sent = 100 `min` String.length svg_content) ∧
  stdout (world_after create_app_icon filling_disk busy) = stdout busy.
Proof.
  apply (failed_flush_leaves_prefix filling_disk busy 100 ENOSPC);
    reflexivity.
Defined.

(** X4.  Running again is not safe on a failing device: after a run that
    returned, a second run whose flush fails before the end of the
    template raises, and the icon no longer holds the template. *)
Theorem failed_rerun_loses_icon
    (h1 h2 : Host) (w w1 : World) (r : bool) (n : nat) (e : Z) :
  create_app_icon h1 w = (Return r, w1) →
  open_fault h2 icon_path = None →
  flush_fault h2 icon_path svg_content = Some (n, e) →
  n < String.length svg_content →
  fs w1 !! icon_path = Some svg_content ∧
  outcome create_app_icon h2 w1 = Raise (OSError e) ∧
  fs (world_after create_app_icon h2 w1) !! icon_path ≠ Some svg_content.
Proof.
  intros H1 Ho Hf Hn.
  apply create_app_icon_returned in H1 as [_ ->].
  split; [apply icon_after_success|].
  unfold outcome, world_after. rewrite create_app_icon_run, Ho, Hf.
  split; [done|]. cbn [snd]. unfold after_write; cbn [fs].
  rewrite lookup_insert_eq. intros Heq. apply (inj Some) in Heq.
  apply (f_equal String.length) in Heq.
  rewrite substring_0_length in Heq.
  set (len := String.length svg_content) in *. lia.
Qed.

(** A good run, then a run on a device that fills up after a hundred
    bytes. *)
Lemma failed_rerun_loses_icon_witness :
  fs (world_after create_app_icon healthy busy) !! icon_path
    = Some svg_content ∧
  outcome create_app_icon filling_disk
    (world_after create_app_icon healthy busy) = Raise (OSError ENOSPC) ∧
  fs (world_after create_app_icon filling_disk
        (world_after create_app_icon healthy busy)) !! icon_path
    ≠ Some svg_content.
Proof.
  apply (failed_rerun_loses_icon healthy filling_disk busy _ true 100 ENOSPC).
  - vm_compute. reflexivity.
  - reflexivity.
  - reflexivity.
  - vm_compute. lia.
Defined.

(** X5.  A second run that is refused at the open leaves the icon of the
    first run in place, with the template in it. *)
Theorem refused_rerun_keeps_icon
    (h1 h2 : Host) (w w1 : World) (r : bool) (e : Z) :
  create_app_icon h1 w = (Return r, w1) →
  open_fault h2 icon_path = Some e →
  outcome create_app_icon h2 w1 = Raise (OSError e) ∧
  fs (world_after create_app_icon h2 w1) !! icon_path = Some svg_content.
Proof.
  intros H1 Ho.
  apply create_app_icon_returned in H1 as [_ ->].
  unfold outcome, world_after. rewrite create_app_icon_run, Ho.
  split; [done|]. cbn [snd]. unfold record; cbn [fs].
  apply icon_after_success.
Qed.

(** A good run, then a run with [/tmp] not writable. *)
Lemma refused_rerun_keeps_icon_witness :
  outcome create_app_icon read_only_tmp
    (world_after create_app_icon healthy busy) = Raise (OSError EACCES) ∧
  fs (world_after create_app_icon read_only_tmp
        (world_after create_app_icon healthy busy)) !! icon_path
    = Some svg_content.
Proof.
  apply (refused_rerun_keeps_icon healthy read_only_tmp busy _ true EACCES).
  - vm_compute. reflexivity.
  - reflexivity.
Defined.

(** X6.  A run that gets its file written repairs whatever an earlier run
    left: after any first run, refused, failed half way or successful, a
    second run on which the open and the flush succeed leaves the original
    file system with the template at the icon, whether or not the console
    takes its status text. *)
Theorem written_after_any_run (h1 h2 : Host) (w : World) :
  open_fault h2 icon_path = None →
  flush_fault h2 icon_path svg_content = None →
  fs (world_after create_app_icon h2 (world_after create_app_icon h1 w))
    = <[icon_path := svg_content]> (fs w).
Proof.
  intros Ho Hf.
  destruct (create_app_icon_written h2 (world_after create_app_icon h1 w)
              Ho Hf) as (out & evs & rest & -> & _ & _).
  unfold with_console, after_write; cbn [fs].
  destruct (open_fault h1 icon_path) as [e|] eqn:Ho1;
    [|destruct (flush_fault h1 icon_path svg_content) as [[n e]|] eqn:Hf1].
  - unfold world_after. rewrite create_app_icon_run, Ho1.
    by destruct w as [files handles out0 env procs events].
  - unfold world_after. rewrite create_app_icon_run, Ho1, Hf1.
    destruct w as [files handles out0 env procs events].
    unfold after_write; world_simpl; cbn [snd].
    by rewrite insert_insert_eq.
  - destruct (create_app_icon_written h1 w Ho1 Hf1)
      as (out1 & evs1 & rest1 & -> & _ & _).
    destruct w as [files handles out0 env procs events].
    unfold with_console, after_write; world_simpl.
    by rewrite insert_insert_eq.
Qed.

(** A run on a full device, then a run whose file is written and whose
    console breaks. *)
Lemma written_after_any_run_witness :
  fs (world_after create_app_icon console_breaks
        (world_after create_app_icon full_disk busy))
    = <[icon_path := svg_content]> (fs busy).
Proof.
  apply (written_after_any_run full_disk console_breaks busy); reflexivity.
Defined.

(** X7.  The console is not idempotent: two runs that return print the
    status text twice, one copy after the other, after what was on the
    console before. *)
Theorem two_runs_print_twice
    (h1 h2 : Host) (w w1 w2 : World) (r1 r2 : bool) :
  create_app_icon h1 w = (Return r1, w1) →
  create_app_icon h2 w1 = (Return r2, w2) →
  stdout w2 = stdout w +:+ console_output +:+ console_output.
Proof.
  intros H1 H2.
  apply create_app_icon_returned in H1 as [_ ->].
  apply create_app_icon_returned in H2 as [_ ->].
  unfold announce; cbn [stdout]. unfold after_write; cbn [stdout].
  apply string_app_assoc.
Qed.

(** Two runs in a row on a healthy host. *)
Lemma two_runs_print_twice_witness :
  stdout (world_after create_app_icon healthy
            (world_after create_app_icon healthy busy))
    = stdout busy +:+ console_output +:+ console_output.
Proof.
  apply (two_runs_print_twice healthy healthy busy
           (world_after create_app_icon healthy busy) _ true true);
    vm_compute; reflexivity.
Defined.

(** X8.  A [print] that fails does not undo the write: when the open and
    the flush succeed and the console refuses one of the status strings,
    the call raises [OSError], the icon holds the whole template, the
    file is closed, and the console has received a beginning of the
    status text and nothing else. *)
Theorem failed_print_keeps_icon (h : Host) (w : World) :
  open_fault h icon_path = None →
  flush_fault h icon_path svg_content = None →
  stdout_accepts h status_lines = false →
  (∃ e, outcome create_app_icon h w = Raise (OSError e)) ∧
  fs (world_after create_app_icon h w) !! icon_path = Some svg_content ∧
  fds (world_after create_app_icon h w) = fds w ∧
  ∃ out rest,
    stdout (world_after create_app_icon h w) = stdout w +:+ out ∧
    console_output = out +:+ rest.
Proof.
  intros Ho Hf Hp. split; [|split; [|split]].
  - unfold outcome. rewrite create_app_icon_run, Ho, Hf.
    destruct (print_all_raises status_lines h
                (after_write icon_path svg_content w) Hp) as [e He].
    exists e.
    destruct (print_all status_lines h _) as [[u|e'] w'];
      simpl in He |- *; congruence.
  - destruct (create_app_icon_written h w Ho Hf)
      as (out & evs & rest & -> & _ & _).
    unfold with_console, after_write; cbn [fs]. apply lookup_insert_eq.
  - apply create_app_icon_keeps_fds.
  - destruct (create_app_icon_written h w Ho Hf)
      as (out & evs & rest & -> & Htext & _).
    exists out, rest. split; [|done].
    by destruct w as [files handles out0 env procs events].
Qed.

(** A run whose console breaks in the middle of the second status line. *)
Lemma failed_print_keeps_icon_witness :
  (∃ e, outcome create_app_icon console_breaks busy = Raise (OSError e)) ∧
  fs (world_after create_app_icon console_breaks busy) !! icon_path
    = Some svg_content ∧
  fds (world_after create_app_icon console_breaks busy) = fds busy ∧
  ∃ out rest,
    stdout (world_after create_app_icon console_breaks busy)
      = stdout busy +:+ out ∧
    console_output = out +:+ rest.
Proof.
  apply (failed_print_keeps_icon console_breaks busy);
    vm_compute; reflexivity.
Defined.
